(** * Landsat ML cookbook: the data-ingestion notebooks

    A shallow embedding of the Python code cells of
    [notebooks/1.0_Data_Ingestion-Geospatial.ipynb] and of the Intake
    notebook "Data Ingestion - General Purpose Tooling".

    The notebooks orchestrate third-party libraries (pystac-client,
    planetary_computer, odc-stac, xarray, pandas, intake, panel, hvplot).
    What the notebooks themselves compute (string filters, dictionary and
    list indexing, the band-metadata loop with its bare [except]) is
    embedded as Rocq functions; every library call is a field of an
    interface class and stays abstract. *)

From Stdlib Require Import String Ascii List Bool Arith ZArith QArith Lia.
Import ListNotations.

Set Warnings "-register-all".

Open Scope string_scope.

(** ** Python strings *)

Module PyStr.

(** [s.startswith(p)]: the comparison performed at one position of the
    substring search. *)
Fixpoint startswith (p s : string) : bool :=
  match p, s with
  | EmptyString, _ => true
  | String a p', String b s' => Ascii.eqb a b && startswith p' s'
  | String _ _, EmptyString => false
  end.

(** [needle in hay] on [str]: some position of [hay] starts with
    [needle]. *)
Fixpoint str_in (needle hay : string) : bool :=
  startswith needle hay ||
  match hay with
  | EmptyString => false
  | String _ rest => str_in needle rest
  end.

(** [str.lower] on one character.  Collection ids are ASCII; on ASCII
    [str.lower] maps 'A'..'Z' (65..90) to 'a'..'z' and fixes the rest. *)
Definition lower_char (c : ascii) : ascii :=
  let n := nat_of_ascii c in
  if (65 <=? n)%nat && (n <=? 90)%nat then ascii_of_nat (n + 32) else c.

(** [s.lower()]. *)
Fixpoint lower (s : string) : string :=
  match s with
  | EmptyString => EmptyString
  | String c rest => String (lower_char c) (lower rest)
  end.

End PyStr.

(** ** Exceptions and fallible computations *)

(** A dictionary key as it appears in a [KeyError]. *)
Inductive pykey : Type :=
| KStr (s : string)
| KInt (n : nat).

Inductive exn : Type :=
| KeyError (key : pykey)
| IndexError
| TypeError
| AttributeError (name : string)
| LibraryError (name : string).   (* any exception class raised inside a library *)

Inductive result (A : Type) : Type :=
| Ok (a : A)
| Raise (e : exn).

Arguments Ok {A} a.
Arguments Raise {A} e.

Definition bind {A B : Type} (m : result A) (k : A -> result B) : result B :=
  match m with
  | Ok a => k a
  | Raise e => Raise e
  end.

Notation "x <- m ;; k" := (bind m (fun x => k))
  (at level 61, m at next level, right associativity).

(** ** Python containers *)

(** JSON-like values: the content of [asset.extra_fields], of
    [item.properties] and of keyword arguments.  Float literals are
    carried as the decimal rationals written in the source; the
    notebooks only pass them on. *)
Inductive json : Type :=
| JNull
| JBool (b : bool)
| JNum (q : Q)
| JStr (s : string)
| JList (l : list json)
| JDict (d : list (string * json)).

(** A [dict] with [str] keys, in insertion order. *)
Definition dict (V : Type) : Type := list (string * V).

Module PyDict.

Fixpoint get {V : Type} (d : dict V) (k : string) : option V :=
  match d with
  | [] => None
  | (k', v) :: rest => if String.eqb k' k then Some v else get rest k
  end.

(** [d[k]] *)
Definition getitem {V : Type} (d : dict V) (k : string) : result V :=
  match get d k with
  | Some v => Ok v
  | None => Raise (KeyError (KStr k))
  end.

(** [d[k] = v]: an existing key keeps its position. *)
Fixpoint setitem {V : Type} (d : dict V) (k : string) (v : V) : dict V :=
  match d with
  | [] => [(k, v)]
  | (k', v') :: rest =>
      if String.eqb k' k then (k', v) :: rest
      else (k', v') :: setitem rest k v
  end.

Definition keys {V : Type} (d : dict V) : list string := map fst d.
Definition values {V : Type} (d : dict V) : list V := map snd d.
Definition items {V : Type} (d : dict V) : list (string * V) := d.

End PyDict.

Module PyList.

(** [l[i]] for an index [i >= 0]. *)
Definition getitem {A : Type} (l : list A) (i : nat) : result A :=
  match nth_error l i with
  | Some a => Ok a
  | None => Raise IndexError
  end.

(** [enumerate(l)] *)
Definition enumerate {A : Type} (l : list A) : list (nat * A) :=
  combine (seq 0 (length l)) l.

End PyList.

(** [v[i]] on a JSON value, [i] an [int] index [>= 0]. *)
Definition json_getitem_int (v : json) (i : nat) : result json :=
  match v with
  | JList l => PyList.getitem l i
  | JStr s =>
      match String.get i s with
      | Some c => Ok (JStr (String c EmptyString))
      | None => Raise IndexError
      end
  | JDict _ => Raise (KeyError (KInt i))      (* JSON objects have [str] keys only *)
  | JNull | JBool _ | JNum _ => Raise TypeError  (* not subscriptable *)
  end.

(** ** STAC objects as the notebooks read them *)

Module Asset.
Record t : Type := mk {
  href : string;
  media_type : string;
  extra_fields : dict json
}.
End Asset.

Module Item.
Record t : Type := mk {
  id : string;
  assets : dict Asset.t;
  properties : dict json
}.
End Item.

Module Collection.
Record t : Type := mk {
  id : string;
  description : string
}.
End Collection.

(** ** The geospatial notebook, [1.0_Data_Ingestion-Geospatial.ipynb] *)

(** Keyword arguments of [catalog.search]. *)
Module SearchArgs.
Record t : Type := mk {
  collections : list string;
  bbox : list Q;
  datetime : string;
  query : json
}.
End SearchArgs.

Module Geospatial.

(** The libraries the geospatial notebook calls.  Their objects are
    opaque; every call may raise. *)
Class Libraries : Type := {
  Client : Type;
  ItemSearch : Type;
  Modifier : Type;
  DataFrame : Type;
  Dataset : Type;
  DataArray : Type;
  Widget : Type;
  View : Type;
  (* planetary_computer *)
  sign_inplace : Modifier;
  (* pystac_client *)
  Client_open : string -> Modifier -> result Client;
  Client_title : Client -> result string;
  Client_get_collections : Client -> result (list Collection.t);
  Client_search : Client -> SearchArgs.t -> result ItemSearch;
  ItemSearch_item_collection : ItemSearch -> result (list Item.t);
  (* panel *)
  pn_widgets_Select : nat -> list ((nat * string) * nat) -> string -> result Widget;
  pn_panel : string -> nat -> result View;
  pn_Row : Widget -> (nat -> result View) -> result View;
  (* pandas *)
  DataFrame_from_dict : list json -> result DataFrame;
  DataFrame_getitem : DataFrame -> list string -> result DataFrame;
  (* odc.stac and xarray *)
  stac_load : list Item.t -> list string -> list Q -> result Dataset;
  Dataset_isel_time : Dataset -> nat -> result Dataset;
  Dataset_to_array : Dataset -> string -> result DataArray;
  DataArray_compute : DataArray -> result DataArray;
  DataArray_set_attrs : DataArray -> dict json -> result DataArray;
  DataArray_attrs_setitem : DataArray -> string -> json -> result DataArray;
  (* plotting *)
  plot_imshow : DataArray -> dict json -> result View;
  hvplot_image : DataArray -> dict json -> result View;
  (* the interpreter's [format(value)] inside an f-string *)
  format : json -> string
}.

Section Notebook.
Context {L : Libraries}.

(** [catalog = pystac_client.Client.open(url, modifier=planetary_computer.sign_inplace)] *)
Definition catalog : result Client :=
  Client_open "https://planetarycomputer.microsoft.com/api/stac/v1" sign_inplace.

(** [all_collections = [i.id for i in catalog.get_collections()]] *)
Definition all_collections (catalog : Client) : result (list string) :=
  cs <- Client_get_collections catalog ;;
  Ok (map Collection.id cs).

(** [[collection for collection in all_collections if "landsat" in collection]] *)
Definition landsat_collections (all_collections : list string) : list string :=
  filter (fun collection => PyStr.str_in "landsat" collection) all_collections.

Definition bbox : list Q := [-11889 # 100; 3854 # 100; -11857 # 100; 3884 # 100].
Definition datetime : string := "2017-06-01/2017-09-30".
Definition collection : string := "landsat-c2-l2".
Definition platform : string := "landsat-8".
Definition cloudy_less_than : Q := 1.

(** [search = catalog.search(collections=["landsat-c2-l2"], bbox=bbox,
    datetime=datetime, query={...})] *)
Definition search (catalog : Client) : result ItemSearch :=
  Client_search catalog
    (SearchArgs.mk ["landsat-c2-l2"] bbox datetime
       (JDict [("eo:cloud_cover", JDict [("lt", JNum cloudy_less_than)]);
               ("platform", JDict [("in", JList [JStr platform])])])).

(** [items = search.item_collection()] *)
Definition items (search : ItemSearch) : result (list Item.t) :=
  ItemSearch_item_collection search.

(** [item_id = {(i, item.id): i for i, item in enumerate(items)}]; the
    keys differ in their first component, so no entry overwrites
    another. *)
Definition item_id (items : list Item.t) : list ((nat * string) * nat) :=
  map (fun '(i, item) => ((i, Item.id item), i)) (PyList.enumerate items).

(** [def get_preview(i): return pn.panel(items[i].assets["rendered_preview"].href, height=300)] *)
Definition get_preview (items : list Item.t) (i : nat) : result View :=
  item <- PyList.getitem items i ;;
  asset <- PyDict.getitem (Item.assets item) "rendered_preview" ;;
  pn_panel (Asset.href asset) 300.

(** [item_sel = pn.widgets.Select(value=1, options=item_id, name="item")] *)
Definition item_sel (items : list Item.t) : result Widget :=
  pn_widgets_Select 1 (item_id items) "item".

(** [pn.Row(item_sel, pn.bind(get_preview, item_sel))] *)
Definition preview_row (items : list Item.t) (item_sel : Widget) : result View :=
  pn_Row item_sel (get_preview items).

(** [selected_item = items[1]] *)
Definition selected_item (items : list Item.t) : result Item.t :=
  PyList.getitem items 1.

(** [asset.extra_fields["eo:bands"][0]] *)
Definition first_band (asset : Asset.t) : result json :=
  eo_bands <- PyDict.getitem (Asset.extra_fields asset) "eo:bands" ;;
  json_getitem_int eo_bands 0.

(** [[
assets = []
for _, asset in selected_item.assets.items():
    try:
        assets.append(asset.extra_fields["eo:bands"][0])
    except:
        pass
]]
    [assets_loop todo assets] runs the loop over the remaining [todo]
    from the accumulator [assets]. *)
Fixpoint assets_loop (todo : list (string * Asset.t)) (assets : list json)
  : list json :=
  match todo with
  | [] => assets
  | (_, asset) :: rest =>
      match first_band asset with
      | Ok band => assets_loop rest (assets ++ [band])
      | Raise _ => assets_loop rest assets       (* except: pass *)
      end
  end.

Definition assets (selected_item : Item.t) : result (list json) :=
  Ok (assets_loop (PyDict.items (Item.assets selected_item)) []).

Definition cols_ordered : list string :=
  ["common_name"; "description"; "name"; "center_wavelength";
   "full_width_half_max"].

(** [bands = pd.DataFrame.from_dict(assets)[cols_ordered]] *)
Definition bands (assets : list json) : result DataFrame :=
  df <- DataFrame_from_dict assets ;;
  DataFrame_getitem df cols_ordered.

Definition bands_of_interest : list string := ["red"; "green"; "blue"].

(** [ds = odc.stac.stac_load([selected_item], bands=bands_of_interest,
    bbox=bbox, chunks={}).isel(time=0)]; the constant [chunks={}] is part
    of the call [stac_load]. *)
Definition ds (selected_item : Item.t) : result Dataset :=
  loaded <- stac_load [selected_item] bands_of_interest bbox ;;
  Dataset_isel_time loaded 0.

(** [da = ds.to_array(dim="band").compute()] *)
Definition da (ds : Dataset) : result DataArray :=
  arr <- Dataset_to_array ds "band" ;;
  DataArray_compute arr.

(** [da.attrs = selected_item.properties] *)
Definition retain_attributes (da : DataArray) (selected_item : Item.t)
  : result DataArray :=
  DataArray_set_attrs da (Item.properties selected_item).

(** [da.attrs["crs"] = f"epsg:{selected_item.properties['proj:epsg']}"] *)
Definition set_crs (da : DataArray) (selected_item : Item.t)
  : result DataArray :=
  epsg <- PyDict.getitem (Item.properties selected_item) "proj:epsg" ;;
  DataArray_attrs_setitem da "crs" (JStr ("epsg:" ++ format epsg)).

(** The three [da.hvplot.image] calls and [da.plot.imshow]. *)
Definition imshow (da : DataArray) : result View :=
  plot_imshow da [("robust", JBool true); ("size", JNum 3)].

Definition image_plain (da : DataArray) : result View :=
  hvplot_image da
    [("x", JStr "x"); ("y", JStr "y"); ("cmap", JStr "viridis");
     ("aspect", JNum 1)].

Definition image_by_band (da : DataArray) : result View :=
  hvplot_image da
    [("x", JStr "x"); ("y", JStr "y"); ("col", JStr "band");
     ("cmap", JStr "viridis"); ("xaxis", JBool false);
     ("yaxis", JBool false); ("colorbar", JBool false);
     ("rasterize", JBool true)].

Definition image_geo (da : DataArray) : result View :=
  hvplot_image da
    [("x", JStr "x"); ("y", JStr "y"); ("cmap", JStr "viridis");
     ("geo", JBool true); ("alpha", JNum (9 # 10)); ("tiles", JStr "ESRI");
     ("xlabel", JStr "Longitude"); ("ylabel", JStr "Latitude");
     ("colorbar", JBool false); ("aspect", JNum 1)].

(** What a complete run leaves in the namespace. *)
Record Outputs : Type := mkOutputs {
  out_landsat_collections : list string;
  out_item_id : list ((nat * string) * nat);
  out_bands : DataFrame;
  out_ds : Dataset;
  out_da : DataArray
}.

(** The code cells in notebook order.  A Python exception raised
    outside a [try] ends the run, which is what [bind] does. *)
Definition notebook : result Outputs :=
  catalog <- catalog ;;
  _ <- Client_title catalog ;;
  all_collections <- all_collections catalog ;;
  search <- search catalog ;;
  items <- items search ;;
  item_sel <- item_sel items ;;
  _ <- preview_row items item_sel ;;
  selected_item <- selected_item items ;;
  assets <- assets selected_item ;;
  bands <- bands assets ;;
  ds <- ds selected_item ;;
  da <- da ds ;;
  _ <- imshow da ;;
  _ <- image_plain da ;;
  _ <- image_by_band da ;;
  da <- retain_attributes da selected_item ;;
  da <- set_crs da selected_item ;;
  _ <- image_geo da ;;
  Ok (mkOutputs (landsat_collections all_collections) (item_id items)
        bands ds da).

(** Where a run of the cells can end with exception [e], cell by
    cell: each constructor is one cell raising after every cell before
    it returned.  First the cells that use the array [a] bound to [da]. *)
Inductive array_raises (e : exn) (it : Item.t) (a : DataArray) : Prop :=
| on_imshow :
    imshow a = Raise e -> array_raises e it a
| on_image_plain v1 :
    imshow a = Ok v1 -> image_plain a = Raise e -> array_raises e it a
| on_image_by_band v1 v2 :
    imshow a = Ok v1 -> image_plain a = Ok v2 ->
    image_by_band a = Raise e -> array_raises e it a
| on_retain_attributes v1 v2 v3 :
    imshow a = Ok v1 -> image_plain a = Ok v2 -> image_by_band a = Ok v3 ->
    retain_attributes a it = Raise e -> array_raises e it a
| on_set_crs v1 v2 v3 a' :
    imshow a = Ok v1 -> image_plain a = Ok v2 -> image_by_band a = Ok v3 ->
    retain_attributes a it = Ok a' ->
    set_crs a' it = Raise e -> array_raises e it a
| on_image_geo v1 v2 v3 a' a'' :
    imshow a = Ok v1 -> image_plain a = Ok v2 -> image_by_band a = Ok v3 ->
    retain_attributes a it = Ok a' -> set_crs a' it = Ok a'' ->
    image_geo a'' = Raise e -> array_raises e it a.

(** The cells that use the item [it] bound to [selected_item].  The
    band-metadata loop is not among them. *)
Inductive item_raises (e : exn) (it : Item.t) : Prop :=
| on_bands :
    bands (assets_loop (PyDict.items (Item.assets it)) []) = Raise e ->
    item_raises e it
| on_ds b :
    bands (assets_loop (PyDict.items (Item.assets it)) []) = Ok b ->
    ds it = Raise e -> item_raises e it
| on_da b d :
    bands (assets_loop (PyDict.items (Item.assets it)) []) = Ok b ->
    ds it = Ok d -> da d = Raise e -> item_raises e it
| on_array b d a :
    bands (assets_loop (PyDict.items (Item.assets it)) []) = Ok b ->
    ds it = Ok d -> da d = Ok a ->
    array_raises e it a -> item_raises e it.

(** The cells that use the search results [its] bound to [items]. *)
Inductive items_raise (e : exn) (its : list Item.t) : Prop :=
| on_item_sel :
    item_sel its = Raise e -> items_raise e its
| on_preview_row w :
    item_sel its = Ok w -> preview_row its w = Raise e -> items_raise e its
| on_selected_item w v :
    item_sel its = Ok w -> preview_row its w = Ok v ->
    selected_item its = Raise e -> items_raise e its
| on_item w v it :
    item_sel its = Ok w -> preview_row its w = Ok v ->
    selected_item its = Ok it ->
    item_raises e it -> items_raise e its.

(** The cells up to the search. *)
Inductive raises_at (e : exn) : Prop :=
| at_catalog :
    catalog = Raise e -> raises_at e
| at_title c :
    catalog = Ok c -> Client_title c = Raise e -> raises_at e
| at_all_collections c t :
    catalog = Ok c -> Client_title c = Ok t ->
    all_collections c = Raise e -> raises_at e
| at_search c t ac :
    catalog = Ok c -> Client_title c = Ok t -> all_collections c = Ok ac ->
    search c = Raise e -> raises_at e
| at_items c t ac s :
    catalog = Ok c -> Client_title c = Ok t -> all_collections c = Ok ac ->
    search c = Ok s -> items s = Raise e -> raises_at e
| at_items_cells c t ac s its :
    catalog = Ok c -> Client_title c = Ok t -> all_collections c = Ok ac ->
    search c = Ok s -> items s = Ok its ->
    items_raise e its -> raises_at e.

End Notebook.
End Geospatial.

(** ** The Intake notebook, "Data Ingestion - General Purpose Tooling" *)

(** One entry of [stac_cat.data]: [kwargs["data"]] is the JSON of a STAC
    collection, whose required string fields [id] and [description] the
    notebook reads. *)
Module DataDescription.
Record t : Type := mk {
  kwargs : dict Collection.t
}.
End DataDescription.

Module Intake.

(** Intake objects are duck-typed: one opaque type for data types,
    readers, catalogs and arrays. *)
Class Libraries : Type := {
  Obj : Type;
  Signer : Type;
  View : Type;
  (* planetary_computer *)
  sign_inplace : Signer;
  (* intake *)
  recommend : string -> result (list Obj);
  STACJSON : string -> result Obj;
  StacCatalogReader : Obj -> Signer -> result Obj;
  getattr : Obj -> string -> result Obj;
  getitem : Obj -> string -> result Obj;
  read : Obj -> dict json -> result Obj;
  Catalog_data : Obj -> result (dict DataDescription.t);
  Catalog_entries : Obj -> result (dict Obj);
  tail : Obj -> dict json -> result Obj;
  to_reader : Obj -> string -> list string -> Signer -> result Obj;
  (* panel and xarray plotting *)
  pn_JSON_column : Obj -> result View;
  plot_imshow : Obj -> dict json -> result View
}.

Section Notebook.
Context {L : Libraries}.

Definition url : string := "https://planetarycomputer.microsoft.com/api/stac/v1".

(** [data_types = intake.readers.datatypes.recommend(url)] *)
Definition data_types : result (list Obj) := recommend url.

(** [data_type = intake.datatypes.STACJSON(url)] *)
Definition data_type : result Obj := STACJSON url.

(** [readers = data_type.possible_readers] *)
Definition readers (data_type : Obj) : result Obj :=
  getattr data_type "possible_readers".

(** [reader = intake.catalogs.StacCatalogReader(data_type,
    signer=planetary_computer.sign_inplace)] *)
Definition reader (data_type : Obj) : result Obj :=
  StacCatalogReader data_type sign_inplace.

(** [stac_cat = reader.read()] *)
Definition stac_cat (reader : Obj) : result Obj := read reader [].

(** [[
description = {}
for data_description in stac_cat.data.values():
    data = data_description.kwargs["data"]
    description[data["id"]] = data["description"]
]] *)
Fixpoint description_loop (todo : list DataDescription.t)
  (description : dict string) : result (dict string) :=
  match todo with
  | [] => Ok description
  | data_description :: rest =>
      data <- PyDict.getitem (DataDescription.kwargs data_description) "data" ;;
      description_loop rest
        (PyDict.setitem description (Collection.id data)
           (Collection.description data))
  end.

Definition description (stac_cat : Obj) : result (dict string) :=
  entries <- Catalog_data stac_cat ;;
  description_loop (PyDict.values entries) [].

(** [[key for key in description.keys() if 'landsat' in key.lower()]] *)
Definition landsat_keys (description : dict string) : list string :=
  filter (fun key => PyStr.str_in "landsat" (PyStr.lower key))
    (PyDict.keys description).

(** [print("1:", description["landsat-c2-l1"])] and
    [print("2:", description["landsat-c2-l2"])] *)
Definition printed_descriptions (description : dict string)
  : result (string * string) :=
  d1 <- PyDict.getitem description "landsat-c2-l1" ;;
  d2 <- PyDict.getitem description "landsat-c2-l2" ;;
  Ok (d1, d2).

(** [landsat_reader = stac_cat["landsat-c2-l2"]] *)
Definition landsat_reader (stac_cat : Obj) : result Obj :=
  getitem stac_cat "landsat-c2-l2".

(** [landsat_metadata = landsat_reader.read().metadata] *)
Definition landsat_metadata (landsat_reader : Obj) : result Obj :=
  c <- read landsat_reader [] ;;
  getattr c "metadata".

(** [landsat_reader["thumbnail"].read()] *)
Definition thumbnail (landsat_reader : Obj) : result Obj :=
  t <- getitem landsat_reader "thumbnail" ;;
  read t [].

(** [landsat_items = landsat_reader["geoparquet-items"]] *)
Definition landsat_items (landsat_reader : Obj) : result Obj :=
  getitem landsat_reader "geoparquet-items".

(** [cat = landsat_items.tail(output_instance="geopandas:GeoDataFrame")
    .GeoDataFrameToSTACCatalog.read()] *)
Definition cat (landsat_items : Obj) : result Obj :=
  t <- tail landsat_items [("output_instance", JStr "geopandas:GeoDataFrame")] ;;
  conv <- getattr t "GeoDataFrameToSTACCatalog" ;;
  read conv [].

(** [item_key = list(cat.entries.keys())[0]] *)
Definition item_key (cat : Obj) : result string :=
  entries <- Catalog_entries cat ;;
  PyList.getitem (PyDict.keys entries) 0.

(** [subcat = cat[item_key].read()] *)
Definition subcat (cat : Obj) (item_key : string) : result Obj :=
  entry <- getitem cat item_key ;;
  read entry [].

(** [subcat.red.read()] *)
Definition red (subcat : Obj) : result Obj :=
  r <- getattr subcat "red" ;;
  read r [].

(** [catbands = cat[item_key].to_reader(reader="StackBands",
    bands=["red", "green", "blue"], signer=planetary_computer.sign_inplace)] *)
Definition catbands (cat : Obj) (item_key : string) : result Obj :=
  entry <- getitem cat item_key ;;
  to_reader entry "StackBands" ["red"; "green"; "blue"] sign_inplace.

(** [data = catbands.read(dim="band")] *)
Definition data (catbands : Obj) : result Obj :=
  read catbands [("dim", JStr "band")].

(** [data.plot.imshow(robust=True, figsize=(10, 10))] *)
Definition imshow (data : Obj) : result View :=
  plot_imshow data
    [("robust", JBool true); ("figsize", JList [JNum 10; JNum 10])].

(** What a complete run leaves in the namespace. *)
Record Outputs : Type := mkOutputs {
  out_landsat_keys : list string;
  out_data : Obj
}.

(** The code cells in notebook order. *)
Definition notebook : result Outputs :=
  _ <- data_types ;;
  data_type <- data_type ;;
  _ <- readers data_type ;;
  reader <- reader data_type ;;
  stac_cat <- stac_cat reader ;;
  description <- description stac_cat ;;
  _ <- printed_descriptions description ;;
  landsat_reader <- landsat_reader stac_cat ;;
  landsat_metadata <- landsat_metadata landsat_reader ;;
  _ <- pn_JSON_column landsat_metadata ;;
  _ <- thumbnail landsat_reader ;;
  landsat_items <- landsat_items landsat_reader ;;
  cat <- cat landsat_items ;;
  item_key <- item_key cat ;;
  subcat <- subcat cat item_key ;;
  _ <- red subcat ;;
  catbands <- catbands cat item_key ;;
  data <- data catbands ;;
  _ <- imshow data ;;
  Ok (mkOutputs (landsat_keys description) data).

(** Where a run of the cells can end with exception [e], cell by
    cell.  First the cells that use the converted catalog [c] bound to
    [cat]. *)
Inductive cat_raises (e : exn) (c : Obj) : Prop :=
| on_item_key :
    item_key c = Raise e -> cat_raises e c
| on_subcat k :
    item_key c = Ok k -> subcat c k = Raise e -> cat_raises e c
| on_red k sub :
    item_key c = Ok k -> subcat c k = Ok sub -> red sub = Raise e ->
    cat_raises e c
| on_catbands k sub r :
    item_key c = Ok k -> subcat c k = Ok sub -> red sub = Ok r ->
    catbands c k = Raise e -> cat_raises e c
| on_data k sub r cb :
    item_key c = Ok k -> subcat c k = Ok sub -> red sub = Ok r ->
    catbands c k = Ok cb -> data cb = Raise e -> cat_raises e c
| on_imshow k sub r cb d :
    item_key c = Ok k -> subcat c k = Ok sub -> red sub = Ok r ->
    catbands c k = Ok cb -> data cb = Ok d -> imshow d = Raise e ->
    cat_raises e c.

(** The cells that use [lr], bound to [landsat_reader]. *)
Inductive reader_raises (e : exn) (lr : Obj) : Prop :=
| on_landsat_metadata :
    landsat_metadata lr = Raise e -> reader_raises e lr
| on_json_pane md :
    landsat_metadata lr = Ok md -> pn_JSON_column md = Raise e ->
    reader_raises e lr
| on_thumbnail md v :
    landsat_metadata lr = Ok md -> pn_JSON_column md = Ok v ->
    thumbnail lr = Raise e -> reader_raises e lr
| on_landsat_items md v th :
    landsat_metadata lr = Ok md -> pn_JSON_column md = Ok v ->
    thumbnail lr = Ok th -> landsat_items lr = Raise e -> reader_raises e lr
| on_cat md v th li :
    landsat_metadata lr = Ok md -> pn_JSON_column md = Ok v ->
    thumbnail lr = Ok th -> landsat_items lr = Ok li -> cat li = Raise e ->
    reader_raises e lr
| on_cat_cells md v th li c :
    landsat_metadata lr = Ok md -> pn_JSON_column md = Ok v ->
    thumbnail lr = Ok th -> landsat_items lr = Ok li -> cat li = Ok c ->
    cat_raises e c -> reader_raises e lr.

(** The cells up to the choice of the landsat collection. *)
Inductive raises_at (e : exn) : Prop :=
| at_data_types :
    data_types = Raise e -> raises_at e
| at_data_type dts :
    data_types = Ok dts -> data_type = Raise e -> raises_at e
| at_readers dts dt :
    data_types = Ok dts -> data_type = Ok dt -> readers dt = Raise e ->
    raises_at e
| at_reader dts dt rs :
    data_types = Ok dts -> data_type = Ok dt -> readers dt = Ok rs ->
    reader dt = Raise e -> raises_at e
| at_stac_cat dts dt rs r :
    data_types = Ok dts -> data_type = Ok dt -> readers dt = Ok rs ->
    reader dt = Ok r -> stac_cat r = Raise e -> raises_at e
| at_description dts dt rs r sc :
    data_types = Ok dts -> data_type = Ok dt -> readers dt = Ok rs ->
    reader dt = Ok r -> stac_cat r = Ok sc ->
    description sc = Raise e -> raises_at e
| at_printed dts dt rs r sc d :
    data_types = Ok dts -> data_type = Ok dt -> readers dt = Ok rs ->
    reader dt = Ok r -> stac_cat r = Ok sc -> description sc = Ok d ->
    printed_descriptions d = Raise e -> raises_at e
| at_landsat_reader dts dt rs r sc d pr :
    data_types = Ok dts -> data_type = Ok dt -> readers dt = Ok rs ->
    reader dt = Ok r -> stac_cat r = Ok sc -> description sc = Ok d ->
    printed_descriptions d = Ok pr ->
    landsat_reader sc = Raise e -> raises_at e
| at_reader_cells dts dt rs r sc d pr lr :
    data_types = Ok dts -> data_type = Ok dt -> readers dt = Ok rs ->
    reader dt = Ok r -> stac_cat r = Ok sc -> description sc = Ok d ->
    printed_descriptions d = Ok pr -> landsat_reader sc = Ok lr ->
    reader_raises e lr -> raises_at e.

End Notebook.
End Intake.

(** ** A landsat scene and a test double for the libraries *)

Module Examples.

Definition rendered_preview : Asset.t :=
  Asset.mk
    "https://planetarycomputer.microsoft.com/api/data/v1/item/preview.png"
    "image/png"
    [("title", JStr "Rendered preview"); ("rel", JStr "preview")].

Definition red : Asset.t :=
  Asset.mk
    "https://landsateuwest.blob.core.windows.net/landsat-c2/LC08_SR_B4.TIF"
    "image/tiff; application=geotiff; profile=cloud-optimized"
    [("title", JStr "Red Band");
     ("eo:bands",
      JList [JDict [("name", JStr "OLI_B4"); ("common_name", JStr "red");
                    ("description", JStr "Visible red");
                    ("center_wavelength", JNum (65 # 100));
                    ("full_width_half_max", JNum (4 # 100))]])].

Definition scene : Item.t :=
  Item.mk "LC08_L2SP_042033_20170718_02_T1"
    [("rendered_preview", rendered_preview); ("red", red)]
    [("platform", JStr "landsat-8"); ("proj:epsg", JNum 32611)].

(** A test double: every library call returns at once with a
    placeholder, the search returns [found], and the preview row
    renders the bound function at the widget's value. *)
Definition offline_with (found : list Item.t) : Geospatial.Libraries :=
  {| Geospatial.Client := unit;
     Geospatial.ItemSearch := unit;
     Geospatial.Modifier := unit;
     Geospatial.DataFrame := list json;
     Geospatial.Dataset := list string;
     Geospatial.DataArray := list string * dict json;
     Geospatial.Widget := nat;
     Geospatial.View := unit;
     Geospatial.sign_inplace := tt;
     Geospatial.Client_open := fun _ _ => Ok tt;
     Geospatial.Client_title := fun _ => Ok "Microsoft Planetary Computer STAC API";
     Geospatial.Client_get_collections := fun _ =>
       Ok [Collection.mk "landsat-c2-l1" "Landsat Collection 2 Level-1";
           Collection.mk "landsat-c2-l2" "Landsat Collection 2 Level-2"];
     Geospatial.Client_search := fun _ _ => Ok tt;
     Geospatial.ItemSearch_item_collection := fun _ => Ok found;
     Geospatial.pn_widgets_Select := fun value _ _ => Ok value;
     Geospatial.pn_panel := fun _ _ => Ok tt;
     Geospatial.pn_Row := fun value bound => bound value;
     Geospatial.DataFrame_from_dict := fun rows => Ok rows;
     Geospatial.DataFrame_getitem := fun df _ => Ok df;
     Geospatial.stac_load := fun _ bands _ => Ok bands;
     Geospatial.Dataset_isel_time := fun ds _ => Ok ds;
     Geospatial.Dataset_to_array := fun ds _ => Ok (ds, []);
     Geospatial.DataArray_compute := fun da => Ok da;
     Geospatial.DataArray_set_attrs := fun da attrs => Ok (fst da, attrs);
     Geospatial.DataArray_attrs_setitem := fun da k v =>
       Ok (fst da, PyDict.setitem (snd da) k v);
     Geospatial.plot_imshow := fun _ _ => Ok tt;
     Geospatial.hvplot_image := fun _ _ => Ok tt;
     Geospatial.format := fun _ => "32611" |}.

(** The search finds the scene twice. *)
Definition offline : Geospatial.Libraries := offline_with [scene; scene].

End Examples.

(** ** Auxiliary definitions for the statements *)

(** The band dictionary the loop keeps for one asset, if any. *)
Definition kept_band (entry : string * Asset.t) : list json :=
  match Geospatial.first_band (snd entry) with
  | Ok band => [band]
  | Raise _ => []
  end.

(** Whether the lookup of the loop body returns for an asset. *)
Definition has_band (entry : string * Asset.t) : bool :=
  match Geospatial.first_band (snd entry) with
  | Ok _ => true
  | Raise _ => false
  end.


(** ** A small catalog and a test double for the Intake libraries *)

Module IntakeExamples.

Definition landsat_l1 : DataDescription.t :=
  DataDescription.mk
    [("data", Collection.mk "landsat-c2-l1" "Landsat Collection 2 Level-1")].

Definition landsat_l2 : DataDescription.t :=
  DataDescription.mk
    [("data", Collection.mk "landsat-c2-l2" "Landsat Collection 2 Level-2")].

Definition landsat_l2_revised : DataDescription.t :=
  DataDescription.mk
    [("data", Collection.mk "landsat-c2-l2" "Landsat Collection 2 Level-2, revised")].

Definition sentinel : DataDescription.t :=
  DataDescription.mk
    [("data", Collection.mk "sentinel-2-l2a" "Sentinel-2 Level-2A")].

(** Every library call returns at once with a placeholder; the catalog
    lists three collections and the converted catalog one item. *)
Definition offline : Intake.Libraries :=
  {| Intake.Obj := unit;
     Intake.Signer := unit;
     Intake.View := unit;
     Intake.sign_inplace := tt;
     Intake.recommend := fun _ => Ok [tt];
     Intake.STACJSON := fun _ => Ok tt;
     Intake.StacCatalogReader := fun _ _ => Ok tt;
     Intake.getattr := fun _ _ => Ok tt;
     Intake.getitem := fun _ _ => Ok tt;
     Intake.read := fun _ _ => Ok tt;
     Intake.Catalog_data := fun _ =>
       Ok [("landsat-c2-l1", landsat_l1); ("landsat-c2-l2", landsat_l2);
           ("sentinel-2-l2a", sentinel)];
     Intake.Catalog_entries := fun _ =>
       Ok [("LC09_L2SP_042033_20240418_02_T1", tt)];
     Intake.tail := fun _ _ => Ok tt;
     Intake.to_reader := fun _ _ _ _ => Ok tt;
     Intake.pn_JSON_column := fun _ => Ok tt;
     Intake.plot_imshow := fun _ _ => Ok tt |}.

End IntakeExamples.

(** * Properties *)

(** ** Substring test and lowering *)

Module PyStrFacts.
Import PyStr.

Lemma startswith_spec (p s : string) :
  startswith p s = true <-> exists post, s = p ++ post.
Proof.
  revert s; induction p as [|a p IH]; intros s; simpl.
  - split; [intros _; now exists s | reflexivity].
  - destruct s as [|b s].
    + split; [discriminate | intros [post H]; discriminate].
    + rewrite andb_true_iff, Ascii.eqb_eq, IH. split.
      * intros [-> [post ->]]. now exists post.
      * intros [post H]. injection H as -> ->. split; [reflexivity | now exists post].
Qed.

Lemma str_in_spec (needle hay : string) :
  str_in needle hay = true <-> exists pre post, hay = pre ++ needle ++ post.
Proof.
  induction hay as [|c hay IH]; simpl.
  - rewrite orb_false_r, startswith_spec. split.
    + intros [post H]. now exists EmptyString, post.
    + intros [pre [post H]]. destruct pre as [|a pre]; [now exists post | discriminate].
  - rewrite orb_true_iff, startswith_spec, IH. split.
    + intros [[post H] | [pre [post H]]].
      * now exists EmptyString, post.
      * exists (String c pre), post. simpl. now rewrite H.
    + intros [pre [post H]]. destruct pre as [|a pre]; simpl in H.
      * left. now exists post.
      * right. injection H as _ H. now exists pre, post.
Qed.

Lemma lower_app (a b : string) : lower (a ++ b) = lower a ++ lower b.
Proof.
  induction a as [|c a IH]; simpl; [reflexivity | now rewrite IH].
Qed.

Lemma lower_length (s : string) : String.length (lower s) = String.length s.
Proof.
  induction s as [|c s IH]; simpl; [reflexivity | now rewrite IH].
Qed.

Lemma str_in_lower (needle hay : string) :
  str_in needle hay = true -> str_in (lower needle) (lower hay) = true.
Proof.
  rewrite !str_in_spec. intros [pre [post ->]].
  exists (lower pre), (lower post). now rewrite !lower_app.
Qed.

Lemma app_length (a b : string) :
  String.length (a ++ b) = (String.length a + String.length b)%nat.
Proof.
  induction a as [|c a IH]; simpl; [reflexivity | now rewrite IH].
Qed.

Lemma app_empty_r (a : string) : a ++ "" = a.
Proof.
  induction a as [|c a IH]; simpl; [reflexivity | now rewrite IH].
Qed.

(** A haystack no longer than the needle contains it only by being it. *)
Lemma str_in_same_length (needle hay : string) :
  String.length hay = String.length needle ->
  str_in needle hay = true -> hay = needle.
Proof.
  intros Hlen. rewrite str_in_spec. intros [pre [post ->]].
  rewrite !app_length in Hlen.
  destruct pre; [|simpl in Hlen; lia].
  destruct post; [|simpl in Hlen; lia].
  simpl. apply app_empty_r.
Qed.

End PyStrFacts.

(** ** The two landsat filters *)

Module LandsatFilters.
Import PyStr PyStrFacts.

Lemma landsat_collections_keeps (all_collections : list string) (c : string) :
  In c (Geospatial.landsat_collections all_collections) <->
  In c all_collections /\ str_in "landsat" c = true.
Proof.
  unfold Geospatial.landsat_collections. apply filter_In.
Qed.

Lemma landsat_keys_keeps (description : dict string) (key : string) :
  In key (Intake.landsat_keys description) <->
  In key (PyDict.keys description) /\ str_in "landsat" (lower key) = true.
Proof.
  unfold Intake.landsat_keys.
  apply (filter_In (fun key => str_in "landsat" (lower key))).
Qed.

(** A spelling of the word with an uppercase letter, alone as an id:
    dropped by the exact test, kept by the lowering test. *)
Lemma respelled_word (w : string) :
  lower w = "landsat" -> w <> "landsat" ->
  Geospatial.landsat_collections [w] = [] /\
  forall d : string, Intake.landsat_keys [(w, d)] = [w].
Proof.
  intros Hlow Hneq. split.
  - unfold Geospatial.landsat_collections. cbn [filter].
    destruct (str_in "landsat" w) eqn:E; [|reflexivity].
    exfalso. apply Hneq. apply str_in_same_length; [|exact E].
    rewrite <- (lower_length w), Hlow. reflexivity.
  - intros d. unfold Intake.landsat_keys. cbn [PyDict.keys map fst filter].
    rewrite Hlow. reflexivity.
Qed.

(** The exact test drops an id exactly when every occurrence of the
    word in it, read without regard to case, is spelled with an
    uppercase letter. *)
Lemma dropped_iff_respelled (c : string) :
  Geospatial.landsat_collections [c] = [] <->
  forall pre w post : string,
    c = (pre ++ w ++ post)%string -> lower w = "landsat" -> w <> "landsat".
Proof.
  unfold Geospatial.landsat_collections. cbn [filter].
  destruct (str_in "landsat" c) eqn:E.
  - split; [discriminate|]. intros Hall. exfalso.
    apply str_in_spec in E. destruct E as [pre [post ->]].
    now apply (Hall pre "landsat" post).
  - split; [|reflexivity]. intros _ pre w post -> Hlow ->.
    assert (H : str_in "landsat" (pre ++ "landsat" ++ post) = true)
      by (apply str_in_spec; now exists pre, post).
    congruence.
Qed.

Lemma respelled_inside (pre w post : string) (description : dict string) :
  lower w = "landsat" ->
  In (pre ++ w ++ post)%string (PyDict.keys description) ->
  In (pre ++ w ++ post)%string (Intake.landsat_keys description).
Proof.
  intros Hlow Hin. apply landsat_keys_keeps. split; [assumption|].
  apply str_in_spec. exists (lower pre), (lower post).
  now rewrite !lower_app, Hlow.
Qed.

Lemma case_variant_kept (a b : string) (description : dict string) :
  lower a = lower b ->
  In a (Geospatial.landsat_collections [a]) ->
  In b (PyDict.keys description) ->
  In b (Intake.landsat_keys description).
Proof.
  intros Hlow Ha Hb. apply landsat_keys_keeps. split; [assumption|].
  apply landsat_collections_keeps in Ha. destruct Ha as [_ Ha].
  rewrite <- Hlow. apply (str_in_lower "landsat" a Ha).
Qed.

End LandsatFilters.

(** C10.  The geospatial notebook keeps a collection id exactly when
    the lowercase text "landsat" occurs in the id as written; the
    Intake notebook keeps a key exactly when "landsat" occurs in the
    lowercased key.  Hence a spelling of the word with an uppercase
    letter does not count in the geospatial notebook (an id is dropped
    there exactly when all its occurrences of the word are so spelled)
    and counts in the Intake notebook, which keeps everything the
    geospatial filter keeps together with every key that differs from
    a kept one only in case. *)
Theorem landsat_filters_case_handling :
  (forall (all_collections : list string) (c : string),
     In c (Geospatial.landsat_collections all_collections) <->
     In c all_collections /\
     exists pre post, c = (pre ++ "landsat" ++ post)%string) /\
  (forall (description : dict string) (key : string),
     In key (Intake.landsat_keys description) <->
     In key (PyDict.keys description) /\
     exists pre post, PyStr.lower key = (pre ++ "landsat" ++ post)%string) /\
  (forall c : string,
     Geospatial.landsat_collections [c] = [] <->
     forall pre w post : string,
       c = (pre ++ w ++ post)%string ->
       PyStr.lower w = "landsat" -> w <> "landsat") /\
  (forall w : string,
     PyStr.lower w = "landsat" -> w <> "landsat" ->
     Geospatial.landsat_collections [w] = [] /\
     forall d : string, Intake.landsat_keys [(w, d)] = [w]) /\
  (forall (pre w post : string) (description : dict string),
     PyStr.lower w = "landsat" ->
     In (pre ++ w ++ post)%string (PyDict.keys description) ->
     In (pre ++ w ++ post)%string (Intake.landsat_keys description)) /\
  (forall (a b : string) (description : dict string),
     PyStr.lower a = PyStr.lower b ->
     In a (Geospatial.landsat_collections [a]) ->
     In b (PyDict.keys description) ->
     In b (Intake.landsat_keys description)) /\
  Geospatial.landsat_collections
    ["landsat-c2-l1"; "Landsat-c2-l2"; "sentinel-2-l2a"; "LANDSAT-8"]
  = ["landsat-c2-l1"] /\
  Intake.landsat_keys
    [("landsat-c2-l1", "a"); ("Landsat-c2-l2", "b"); ("sentinel-2-l2a", "c");
     ("LANDSAT-8", "d")]
  = ["landsat-c2-l1"; "Landsat-c2-l2"; "LANDSAT-8"].
Proof.
  split; [|split; [|split; [|split; [|split; [|split; [|split]]]]]].
  - intros all_collections c.
    rewrite LandsatFilters.landsat_collections_keeps, PyStrFacts.str_in_spec.
    reflexivity.
  - intros description key.
    rewrite LandsatFilters.landsat_keys_keeps, PyStrFacts.str_in_spec.
    reflexivity.
  - exact LandsatFilters.dropped_iff_respelled.
  - exact LandsatFilters.respelled_word.
  - exact LandsatFilters.respelled_inside.
  - exact LandsatFilters.case_variant_kept.
  - reflexivity.
  - reflexivity.
Qed.

(** ** Search results and selection *)

Module SearchFacts.

Lemma enumerate_indices {A : Type} (l : list A) :
  map fst (PyList.enumerate l) = seq 0 (length l).
Proof.
  unfold PyList.enumerate. generalize 0%nat.
  induction l as [|a l IH]; intros n; simpl; [reflexivity | now rewrite IH].
Qed.

(** The keys of [item_id] are pairwise distinct, so the dictionary
    comprehension keeps one entry per item, in order. *)
Lemma item_id_keys_distinct (items : list Item.t) :
  NoDup (map fst (Geospatial.item_id items)).
Proof.
  apply (NoDup_map_inv fst).
  unfold Geospatial.item_id. rewrite !map_map.
  rewrite (map_ext _ fst) by (now intros [i item]).
  rewrite enumerate_indices. apply seq_NoDup.
Qed.

Lemma item_id_length (items : list Item.t) :
  length (Geospatial.item_id items) = length items.
Proof.
  unfold Geospatial.item_id, PyList.enumerate.
  rewrite length_map, length_combine, length_seq. apply Nat.min_id.
Qed.

(** [items[1]] needs two search results. *)
Lemma selected_item_needs_two (items : list Item.t) :
  Geospatial.selected_item items = Raise IndexError <->
  (length items < 2)%nat.
Proof.
  unfold Geospatial.selected_item, PyList.getitem.
  destruct (nth_error items 1) eqn:E.
  - split; [discriminate|]. intros Hlt.
    assert (Hnone : nth_error items 1 = None) by (apply nth_error_None; lia).
    congruence.
  - split; [|reflexivity]. intros _.
    apply nth_error_None in E. lia.
Qed.

(** After a search that finds nothing the search cell returns, with an
    empty [item_id]; the run then stops with [IndexError] where the
    notebook indexes the results. *)
Example run_after_empty_search :
  @Geospatial.items (Examples.offline_with []) tt = Ok [] /\
  Geospatial.item_id [] = [] /\
  @Geospatial.notebook (Examples.offline_with []) = Raise IndexError.
Proof.
  repeat split.
Qed.

End SearchFacts.

(** ** Error propagation *)

Module Propagation.

Lemma bind_raises {A B : Type} (m : result A) (k : A -> result B) (e : exn) :
  bind m k = Raise e <->
  m = Raise e \/ exists a, m = Ok a /\ k a = Raise e.
Proof.
  destruct m as [a|e0]; unfold bind; split.
  - intros H. right. now exists a.
  - intros [H | [a' [H1 H2]]]; [discriminate | injection H1 as ->; exact H2].
  - intros H. left. now injection H as ->.
  - intros [H | [a' [H1 H2]]]; [now injection H as -> | discriminate].
Qed.

Lemma assets_loop_flat_map (todo : list (string * Asset.t)) (acc : list json) :
  Geospatial.assets_loop todo acc = (acc ++ flat_map kept_band todo)%list.
Proof.
  revert acc; induction todo as [|[name asset] todo IH]; intros acc; simpl.
  - now rewrite app_nil_r.
  - unfold kept_band at 1. simpl.
    destruct (Geospatial.first_band asset) as [band|e]; rewrite IH.
    + now rewrite <- app_assoc.
    + reflexivity.
Qed.

End Propagation.

Module PropagationRuns.
Import Propagation.

(** One step of a run known to raise: the next cell either returned
    or raised. *)
Ltac next_cell H :=
  match type of H with
  | bind ?m _ = Raise _ =>
      let E := fresh "E" in destruct m eqn:E; cbn [bind] in H
  end.

(** Replay a run along the recorded results of its cells. *)
Ltac replay :=
  repeat match goal with
         | E : ?m = _ |- context [bind ?m _] => rewrite E; cbn [bind]
         end.

Lemma geospatial_run_raises (L : Geospatial.Libraries) (e : exn) :
  Geospatial.notebook = Raise e <-> Geospatial.raises_at e.
Proof.
  split.
  - intros H. unfold Geospatial.notebook, Geospatial.assets in H.
    cbn [bind] in H.
    repeat (next_cell H;
            [| injection H as ->;
               eauto 6 using Geospatial.raises_at, Geospatial.items_raise,
                 Geospatial.item_raises, Geospatial.array_raises ]).
    discriminate.
  - intros H. unfold Geospatial.notebook, Geospatial.assets.
    repeat match goal with
           | H : Geospatial.raises_at _ |- _ => destruct H
           | H : Geospatial.items_raise _ _ |- _ => destruct H
           | H : Geospatial.item_raises _ _ |- _ => destruct H
           | H : Geospatial.array_raises _ _ _ |- _ => destruct H
           end; replay; reflexivity.
Qed.

Lemma intake_run_raises (L : Intake.Libraries) (e : exn) :
  Intake.notebook = Raise e <-> Intake.raises_at e.
Proof.
  split.
  - intros H. unfold Intake.notebook in H.
    repeat (next_cell H;
            [| injection H as ->;
               eauto 6 using Intake.raises_at, Intake.reader_raises,
                 Intake.cat_raises ]).
    discriminate.
  - intros H. unfold Intake.notebook.
    repeat match goal with
           | H : Intake.raises_at _ |- _ => destruct H
           | H : Intake.reader_raises _ _ |- _ => destruct H
           | H : Intake.cat_raises _ _ |- _ => destruct H
           end; replay; reflexivity.
Qed.

End PropagationRuns.

(** C4, as stated, fails in the band-metadata loop of the geospatial
    notebook.  The scene's "rendered_preview" asset has no "eo:bands"
    field, so the lookup raises [KeyError]; the loop's bare [except]
    discards it, the cell returns the bands of the other assets, and
    the whole run completes. *)
Lemma band_loop_swallows_lookup_error :
  In ("rendered_preview", Examples.rendered_preview)
     (PyDict.items (Item.assets Examples.scene)) /\
  Geospatial.first_band Examples.rendered_preview
  = Raise (KeyError (KStr "eo:bands")) /\
  Geospatial.assets Examples.scene
  = Ok [JDict [("name", JStr "OLI_B4"); ("common_name", JStr "red");
               ("description", JStr "Visible red");
               ("center_wavelength", JNum (65 # 100));
               ("full_width_half_max", JNum (4 # 100))]] /\
  (exists out, @Geospatial.notebook Examples.offline = Ok out) /\
  ~ (forall (it : Item.t) (name : string) (asset : Asset.t) (e : exn),
       In (name, asset) (PyDict.items (Item.assets it)) ->
       Geospatial.first_band asset = Raise e ->
       exists e', Geospatial.assets it = Raise e').
Proof.
  split; [now left|].
  split; [reflexivity|].
  split; [reflexivity|].
  split; [eexists; reflexivity|].
  intros Hall.
  destruct (Hall Examples.scene "rendered_preview" Examples.rendered_preview
              (KeyError (KStr "eo:bands"))) as [e' He'].
  - now left.
  - reflexivity.
  - discriminate He'.
Qed.

(** C4, amended.  An exception raised by a library call or by an
    indexing expression ends the cell and the run with that same
    exception: a run of either notebook raises [e] exactly when one of
    its cells raises [e] after all cells before it returned.  The
    band-metadata loop is the exception: it never raises and keeps, in
    asset order, the first "eo:bands" entry of each asset where the
    lookup succeeds, skipping the others. *)
Theorem errors_surface_except_in_band_loop :
  (forall (A B : Type) (m : result A) (k : A -> result B) (e : exn),
     bind m k = Raise e <->
     m = Raise e \/ exists a, m = Ok a /\ k a = Raise e) /\
  (forall (L : Geospatial.Libraries) (e : exn),
     Geospatial.notebook = Raise e <-> Geospatial.raises_at e) /\
  (forall (L : Intake.Libraries) (e : exn),
     Intake.notebook = Raise e <-> Intake.raises_at e) /\
  (forall it : Item.t,
     Geospatial.assets it
     = Ok (flat_map kept_band (PyDict.items (Item.assets it)))).
Proof.
  split; [|split; [|split]].
  - intros A B m k e. apply Propagation.bind_raises.
  - exact PropagationRuns.geospatial_run_raises.
  - exact PropagationRuns.intake_run_raises.
  - intros it. unfold Geospatial.assets.
    now rewrite Propagation.assets_loop_flat_map.
Qed.

(** * Further properties of the notebooks' own code *)

(** ** The band-metadata loop *)

Module BandLoopFacts.
Import Propagation.



Lemma kept_band_length (entry : string * Asset.t) :
  length (kept_band entry) = if has_band entry then 1%nat else 0%nat.
Proof.
  unfold kept_band, has_band. now destruct (Geospatial.first_band (snd entry)).
Qed.

Lemma flat_map_kept_length (todo : list (string * Asset.t)) :
  length (flat_map kept_band todo) = length (filter has_band todo).
Proof.
  induction todo as [|entry todo IH]; simpl; [reflexivity|].
  rewrite length_app, kept_band_length, IH.
  now destruct (has_band entry).
Qed.

(** The band table has one row per asset whose lookup returns: never
    more rows than assets, and as many exactly when no asset is
    skipped. *)
Theorem band_rows_count (it : Item.t) :
  exists rows,
    Geospatial.assets it = Ok rows /\
    length rows = length (filter has_band (PyDict.items (Item.assets it))) /\
    (length rows <= length (Item.assets it))%nat /\
    (length rows = length (Item.assets it) <->
     forall entry, In entry (PyDict.items (Item.assets it)) ->
                   has_band entry = true).
Proof.
  exists (flat_map kept_band (PyDict.items (Item.assets it))).
  unfold Geospatial.assets, PyDict.items.
  rewrite assets_loop_flat_map, flat_map_kept_length. cbn [app].
  split; [reflexivity|]. split; [reflexivity|].
  split; [apply filter_length_le|].
  generalize (Item.assets it). intros l.
  induction l as [|entry l IH]; simpl.
  - split; [intros _ entry [] | reflexivity].
  - destruct (has_band entry) eqn:E; simpl.
    + split.
      * intros H entry' [<- | Hin]; [exact E|].
        apply IH; [lia | exact Hin].
      * intros H. f_equal. apply IH. intros entry' Hin. apply H. now right.
    + split.
      * intros H. pose proof (filter_length_le has_band l). lia.
      * intros H. specialize (H entry (or_introl eq_refl)). congruence.
Qed.

End BandLoopFacts.

(** ** Search results, the preview and the selection *)

Module SelectionFacts.

Lemma enumerate_entries {A : Type} (l : list A) (i : nat) (a : A) :
  In (i, a) (PyList.enumerate l) <-> nth_error l i = Some a.
Proof.
  unfold PyList.enumerate.
  assert (H : forall n, In (i, a) (combine (seq n (length l)) l) <->
                        (n <= i)%nat /\ nth_error l (i - n) = Some a).
  { induction l as [|b l IH]; intros n; simpl.
    - split; [intros [] | intros [_ H]; now destruct (i - n)%nat].
    - rewrite IH. split.
      + intros [H | [Hle Hnth]].
        * injection H as -> ->. split; [lia|]. now rewrite Nat.sub_diag.
        * split; [lia|]. replace (i - n)%nat with (S (i - S n)) by lia.
          exact Hnth.
      + intros [Hle Hnth]. destruct (Nat.eq_dec n i) as [->|Hne].
        * left. rewrite Nat.sub_diag in Hnth. simpl in Hnth. congruence.
        * right. split; [lia|].
          replace (i - n)%nat with (S (i - S n)) in Hnth by lia. exact Hnth. }
  rewrite H, Nat.sub_0_r. split; [now intros [_ ?] | intros ?; split; [lia | assumption]].
Qed.

(** [item_id] maps the label [(i, items[i].id)] to [i], for every
    position [i] of the search results and for nothing else. *)
Theorem item_id_entries (items : list Item.t) (key : nat * string) (i : nat) :
  In (key, i) (Geospatial.item_id items) <->
  exists item, nth_error items i = Some item /\ key = (i, Item.id item).
Proof.
  unfold Geospatial.item_id. rewrite in_map_iff. split.
  - intros [[j item] [Heq Hin]]. injection Heq as <- <-.
    exists item. split; [now apply enumerate_entries | reflexivity].
  - intros [item [Hnth ->]]. exists (i, item).
    split; [reflexivity | now apply enumerate_entries].
Qed.

Section WithLibraries.
Context {L : Geospatial.Libraries}.

(** [get_preview(i)] raises [IndexError] past the end of the results
    and [KeyError] for an item without a "rendered_preview" asset;
    otherwise it hands that asset's href to [pn.panel] with height
    300. *)
Theorem get_preview_cases (items : list Item.t) (i : nat) :
  ((length items <= i)%nat ->
   Geospatial.get_preview items i = Raise IndexError) /\
  (forall item,
     nth_error items i = Some item ->
     PyDict.get (Item.assets item) "rendered_preview" = None ->
     Geospatial.get_preview items i
     = Raise (KeyError (KStr "rendered_preview"))) /\
  (forall item asset,
     nth_error items i = Some item ->
     PyDict.get (Item.assets item) "rendered_preview" = Some asset ->
     Geospatial.get_preview items i
     = Geospatial.pn_panel (Asset.href asset) 300).
Proof.
  unfold Geospatial.get_preview, PyList.getitem, PyDict.getitem.
  split; [|split].
  - intros Hle. apply nth_error_None in Hle. now rewrite Hle.
  - intros item Hnth Hget. now rewrite Hnth; cbn [bind]; rewrite Hget.
  - intros item asset Hnth Hget. now rewrite Hnth; cbn [bind]; rewrite Hget.
Qed.

(** A complete run of the geospatial notebook means that the search
    found at least two items, that the second one is the selected
    item and carries a "proj:epsg" property, and that the outputs
    list the exact-match landsat collections and one label per search
    result. *)
Theorem geospatial_complete_run (out : Geospatial.Outputs) :
  Geospatial.notebook = Ok out ->
  exists c cs s its it,
    Geospatial.catalog = Ok c /\
    Geospatial.Client_get_collections c = Ok cs /\
    Geospatial.search c = Ok s /\
    Geospatial.items s = Ok its /\
    (2 <= length its)%nat /\
    nth_error its 1 = Some it /\
    PyDict.get (Item.properties it) "proj:epsg" <> None /\
    Geospatial.out_landsat_collections out
    = Geospatial.landsat_collections (map Collection.id cs) /\
    Geospatial.out_item_id out = Geospatial.item_id its /\
    length (Geospatial.out_item_id out) = length its.
Proof.
  intros H. unfold Geospatial.notebook, Geospatial.assets in H.
  cbn [bind] in H.
  destruct Geospatial.catalog as [c|] eqn:Ec; cbn [bind] in H; [|discriminate].
  destruct (Geospatial.Client_title c); cbn [bind] in H; [|discriminate].
  unfold Geospatial.all_collections in H.
  destruct (Geospatial.Client_get_collections c) as [cs|] eqn:Ecs;
    cbn [bind] in H; [|discriminate].
  destruct (Geospatial.search c) as [s|] eqn:Es; cbn [bind] in H; [|discriminate].
  destruct (Geospatial.items s) as [its|] eqn:Eits; cbn [bind] in H; [|discriminate].
  destruct (Geospatial.item_sel its); cbn [bind] in H; [|discriminate].
  destruct (Geospatial.preview_row its _); cbn [bind] in H; [|discriminate].
  destruct (Geospatial.selected_item its) as [it|] eqn:Eit;
    cbn [bind] in H; [|discriminate].
  destruct (Geospatial.bands _); cbn [bind] in H; [|discriminate].
  destruct (Geospatial.ds it); cbn [bind] in H; [|discriminate].
  destruct (Geospatial.da _); cbn [bind] in H; [|discriminate].
  destruct (Geospatial.imshow _); cbn [bind] in H; [|discriminate].
  destruct (Geospatial.image_plain _); cbn [bind] in H; [|discriminate].
  destruct (Geospatial.image_by_band _); cbn [bind] in H; [|discriminate].
  destruct (Geospatial.retain_attributes _ _); cbn [bind] in H; [|discriminate].
  destruct (Geospatial.set_crs _ it) eqn:Ecrs; cbn [bind] in H; [|discriminate].
  destruct (Geospatial.image_geo _); cbn [bind] in H; [|discriminate].
  injection H as <-. cbn.
  unfold Geospatial.selected_item, PyList.getitem in Eit.
  destruct (nth_error its 1) as [it'|] eqn:Enth; [|discriminate].
  injection Eit as ->.
  exists c, cs, s, its, it. repeat split; try assumption.
  - assert (Hlt : (1 < length its)%nat)
      by (apply nth_error_Some; congruence). lia.
  - unfold Geospatial.set_crs, PyDict.getitem in Ecrs. intros Hnone.
    rewrite Hnone in Ecrs. discriminate.
  - apply SearchFacts.item_id_length.
Qed.

End WithLibraries.

Lemma geospatial_complete_run_witness :
  exists out,
    @Geospatial.notebook Examples.offline = Ok out /\
    exists c cs s its it,
      @Geospatial.catalog Examples.offline = Ok c /\
      @Geospatial.Client_get_collections Examples.offline c = Ok cs /\
      @Geospatial.search Examples.offline c = Ok s /\
      @Geospatial.items Examples.offline s = Ok its /\
      (2 <= length its)%nat /\
      nth_error its 1 = Some it /\
      PyDict.get (Item.properties it) "proj:epsg" <> None /\
      Geospatial.out_landsat_collections out
      = Geospatial.landsat_collections (map Collection.id cs) /\
      Geospatial.out_item_id out = Geospatial.item_id its /\
      length (Geospatial.out_item_id out) = length its.
Proof.
  eexists. split; [reflexivity|].
  apply (@geospatial_complete_run Examples.offline _ eq_refl).
Defined.

End SelectionFacts.

(** ** The description dictionary of the Intake notebook *)

Module PyDictFacts.

Lemma get_setitem_same {V : Type} (d : dict V) (k : string) (v : V) :
  PyDict.get (PyDict.setitem d k v) k = Some v.
Proof.
  induction d as [|[k' v'] d IH]; simpl.
  - now rewrite String.eqb_refl.
  - destruct (String.eqb k' k) eqn:E; simpl; rewrite E; [reflexivity | exact IH].
Qed.

Lemma get_setitem_other {V : Type} (d : dict V) (k k' : string) (v : V) :
  k' <> k -> PyDict.get (PyDict.setitem d k v) k' = PyDict.get d k'.
Proof.
  intros Hne. induction d as [|[k0 v0] d IH]; simpl.
  - destruct (String.eqb k k') eqn:E; [|reflexivity].
    apply String.eqb_eq in E. congruence.
  - destruct (String.eqb k0 k) eqn:E; simpl.
    + apply String.eqb_eq in E. subst k0.
      destruct (String.eqb k k') eqn:E'; [|reflexivity].
      apply String.eqb_eq in E'. congruence.
    + now rewrite IH.
Qed.

Lemma keys_setitem {V : Type} (d : dict V) (k k' : string) (v : V) :
  In k' (PyDict.keys (PyDict.setitem d k v)) <-> k' = k \/ In k' (PyDict.keys d).
Proof.
  unfold PyDict.keys. induction d as [|[k0 v0] d IH]; simpl.
  - intuition.
  - destruct (String.eqb k0 k) eqn:E; simpl.
    + apply String.eqb_eq in E. subst k0. intuition.
    + rewrite IH. intuition.
Qed.

Lemma keys_setitem_distinct {V : Type} (d : dict V) (k : string) (v : V) :
  NoDup (PyDict.keys d) -> NoDup (PyDict.keys (PyDict.setitem d k v)).
Proof.
  unfold PyDict.keys. induction d as [|[k0 v0] d IH]; simpl; intros Hnd.
  - constructor; [intros [] | constructor].
  - inversion Hnd as [|? ? Hnotin Hnd']; subst.
    destruct (String.eqb k0 k) eqn:E; simpl.
    + now constructor.
    + constructor; [|now apply IH].
      intros Hin. apply (keys_setitem d k k0 v) in Hin.
      destruct Hin as [-> | Hin]; [|contradiction].
      now rewrite String.eqb_refl in E.
Qed.

Lemma get_in_keys {V : Type} (d : dict V) (k : string) :
  PyDict.get d k <> None <-> In k (PyDict.keys d).
Proof.
  unfold PyDict.keys. induction d as [|[k0 v0] d IH]; simpl.
  - intuition.
  - destruct (String.eqb k0 k) eqn:E.
    + apply String.eqb_eq in E. split; [now left | discriminate].
    + rewrite IH. split; [now right|].
      intros [-> | Hin]; [|exact Hin]. now rewrite String.eqb_refl in E.
Qed.

End PyDictFacts.

Module DescriptionFacts.
Import PyDictFacts.

(** Unfolding of one round of the loop on an entry with "data". *)
Lemma description_loop_cons (dd : DataDescription.t) (c : Collection.t)
  (rest : list DataDescription.t) (d : dict string) :
  PyDict.get (DataDescription.kwargs dd) "data" = Some c ->
  Intake.description_loop (dd :: rest) d
  = Intake.description_loop rest
      (PyDict.setitem d (Collection.id c) (Collection.description c)).
Proof.
  intros H. cbn [Intake.description_loop]. unfold PyDict.getitem.
  now rewrite H.
Qed.



Lemma description_loop_keys (todo : list DataDescription.t)
  (d d' : dict string) (k : string) :
  Intake.description_loop todo d = Ok d' ->
  (In k (PyDict.keys d') <->
   In k (PyDict.keys d) \/
   exists dd c, In dd todo /\
                PyDict.get (DataDescription.kwargs dd) "data" = Some c /\
                Collection.id c = k).
Proof.
  revert d. induction todo as [|dd todo IH]; intros d H.
  - injection H as <-. split; [now left|].
    intros [Hin | [dd [c [[] _]]]]. exact Hin.
  - destruct (PyDict.get (DataDescription.kwargs dd) "data") as [c|] eqn:E.
    + rewrite (description_loop_cons dd c todo d E) in H.
      rewrite (IH _ H), keys_setitem. split.
      * intros [[-> | Hin] | [dd' [c' [Hin [Hget Hid]]]]].
        -- right. exists dd, c. split; [now left | now split].
        -- now left.
        -- right. exists dd', c'. split; [now right | now split].
      * intros [Hin | [dd' [c' [[<- | Hin] [Hget Hid]]]]].
        -- left. now right.
        -- left. left. congruence.
        -- right. now exists dd', c'.
    + cbn [Intake.description_loop] in H. unfold PyDict.getitem in H.
      rewrite E in H. discriminate.
Qed.

Lemma description_loop_distinct (todo : list DataDescription.t)
  (d d' : dict string) :
  NoDup (PyDict.keys d) ->
  Intake.description_loop todo d = Ok d' -> NoDup (PyDict.keys d').
Proof.
  revert d. induction todo as [|dd todo IH]; intros d Hnd H.
  - now injection H as <-.
  - destruct (PyDict.get (DataDescription.kwargs dd) "data") as [c|] eqn:E.
    + rewrite (description_loop_cons dd c todo d E) in H.
      apply (IH _ (keys_setitem_distinct d _ _ Hnd) H).
    + cbn [Intake.description_loop] in H. unfold PyDict.getitem in H.
      rewrite E in H. discriminate.
Qed.

Lemma description_loop_untouched (todo : list DataDescription.t)
  (d d' : dict string) (k : string) :
  (forall dd c, In dd todo ->
                PyDict.get (DataDescription.kwargs dd) "data" = Some c ->
                Collection.id c <> k) ->
  Intake.description_loop todo d = Ok d' ->
  PyDict.get d' k = PyDict.get d k.
Proof.
  revert d. induction todo as [|dd todo IH]; intros d Hother H.
  - now injection H as <-.
  - destruct (PyDict.get (DataDescription.kwargs dd) "data") as [c|] eqn:E.
    + rewrite (description_loop_cons dd c todo d E) in H.
      rewrite (IH _ (fun dd' c' Hin => Hother dd' c' (or_intror Hin)) H).
      apply get_setitem_other. intros ->.
      now apply (Hother dd c (or_introl eq_refl) E).
    + cbn [Intake.description_loop] in H. unfold PyDict.getitem in H.
      rewrite E in H. discriminate.
Qed.

End DescriptionFacts.

Module DescriptionListing.
Import PyDictFacts DescriptionFacts.

(** After the loop the keys of [description] are pairwise distinct
    and are exactly the ids of the catalog's collections. *)
Theorem description_keys (todo : list DataDescription.t) (d : dict string) :
  Intake.description_loop todo [] = Ok d ->
  NoDup (PyDict.keys d) /\
  forall k, In k (PyDict.keys d) <->
            exists dd c, In dd todo /\
                         PyDict.get (DataDescription.kwargs dd) "data" = Some c /\
                         Collection.id c = k.
Proof.
  intros H. split.
  - apply (description_loop_distinct todo [] d); [constructor | exact H].
  - intros k. rewrite (description_loop_keys todo [] d k H).
    split; [intros [[] | Hex]; exact Hex | now right].
Qed.

Lemma description_keys_witness :
  Intake.description_loop
    [IntakeExamples.landsat_l1; IntakeExamples.landsat_l2;
     IntakeExamples.sentinel; IntakeExamples.landsat_l2_revised] []
  = Ok [("landsat-c2-l1", "Landsat Collection 2 Level-1");
        ("landsat-c2-l2", "Landsat Collection 2 Level-2, revised");
        ("sentinel-2-l2a", "Sentinel-2 Level-2A")] /\
  NoDup (PyDict.keys
           [("landsat-c2-l1", "Landsat Collection 2 Level-1");
            ("landsat-c2-l2", "Landsat Collection 2 Level-2, revised");
            ("sentinel-2-l2a", "Sentinel-2 Level-2A")]).
Proof.
  split; [reflexivity|].
  apply (description_keys
           [IntakeExamples.landsat_l1; IntakeExamples.landsat_l2;
            IntakeExamples.sentinel; IntakeExamples.landsat_l2_revised]
           _ eq_refl).
Defined.

(** When two collections share an id, the description of the later
    one is the one kept: [description[id]] is the description of the
    last collection with that id. *)
Theorem description_last_wins (pre post : list DataDescription.t)
  (dd : DataDescription.t) (c : Collection.t) (d0 d : dict string) :
  PyDict.get (DataDescription.kwargs dd) "data" = Some c ->
  (forall dd' c', In dd' post ->
                  PyDict.get (DataDescription.kwargs dd') "data" = Some c' ->
                  Collection.id c' <> Collection.id c) ->
  Intake.description_loop (pre ++ dd :: post) d0 = Ok d ->
  PyDict.getitem d (Collection.id c) = Ok (Collection.description c).
Proof.
  revert d0. induction pre as [|p pre IH]; intros d0 Hdata Hpost H.
  - cbn [app] in H. rewrite (description_loop_cons dd c post d0 Hdata) in H.
    unfold PyDict.getitem.
    rewrite (description_loop_untouched post _ d (Collection.id c) Hpost H).
    now rewrite get_setitem_same.
  - cbn [app] in H.
    destruct (PyDict.get (DataDescription.kwargs p) "data") as [cp|] eqn:E.
    + rewrite (description_loop_cons p cp _ d0 E) in H.
      now apply (IH _ Hdata Hpost H).
    + cbn [Intake.description_loop] in H. unfold PyDict.getitem in H.
      rewrite E in H. discriminate.
Qed.

Lemma description_last_wins_witness :
  PyDict.getitem
    [("landsat-c2-l1", "Landsat Collection 2 Level-1");
     ("landsat-c2-l2", "Landsat Collection 2 Level-2, revised");
     ("sentinel-2-l2a", "Sentinel-2 Level-2A")]
    "landsat-c2-l2"
  = Ok "Landsat Collection 2 Level-2, revised".
Proof.
  apply (description_last_wins
           [IntakeExamples.landsat_l1; IntakeExamples.landsat_l2;
            IntakeExamples.sentinel] []
           IntakeExamples.landsat_l2_revised
           (Collection.mk "landsat-c2-l2" "Landsat Collection 2 Level-2, revised")
           [] _ eq_refl).
  - intros dd' c' [].
  - reflexivity.
Defined.

(** The printed list of landsat keys has no repetition, and each of
    its keys is the id of a collection of the catalog. *)
Theorem landsat_keys_listing (todo : list DataDescription.t) (d : dict string) :
  Intake.description_loop todo [] = Ok d ->
  NoDup (Intake.landsat_keys d) /\
  forall key, In key (Intake.landsat_keys d) ->
              exists dd c, In dd todo /\
                           PyDict.get (DataDescription.kwargs dd) "data" = Some c /\
                           Collection.id c = key.
Proof.
  intros H. split.
  - unfold Intake.landsat_keys. apply NoDup_filter.
    apply (description_loop_distinct todo [] d); [constructor | exact H].
  - intros key Hin. apply LandsatFilters.landsat_keys_keeps in Hin.
    destruct Hin as [Hin _].
    apply (description_loop_keys todo [] d key H) in Hin.
    destruct Hin as [[] | Hex]. exact Hex.
Qed.

Lemma landsat_keys_listing_witness :
  Intake.description_loop
    [IntakeExamples.landsat_l1; IntakeExamples.landsat_l2;
     IntakeExamples.sentinel; IntakeExamples.landsat_l2_revised] []
  = Ok [("landsat-c2-l1", "Landsat Collection 2 Level-1");
        ("landsat-c2-l2", "Landsat Collection 2 Level-2, revised");
        ("sentinel-2-l2a", "Sentinel-2 Level-2A")] /\
  NoDup (Intake.landsat_keys
           [("landsat-c2-l1", "Landsat Collection 2 Level-1");
            ("landsat-c2-l2", "Landsat Collection 2 Level-2, revised");
            ("sentinel-2-l2a", "Sentinel-2 Level-2A")]).
Proof.
  split; [reflexivity|].
  apply (landsat_keys_listing
           [IntakeExamples.landsat_l1; IntakeExamples.landsat_l2;
            IntakeExamples.sentinel; IntakeExamples.landsat_l2_revised]
           _ eq_refl).
Defined.

(** The two [print] lines return exactly when the catalog has a
    collection with id "landsat-c2-l1" and one with id
    "landsat-c2-l2"; a missing id surfaces as a [KeyError] naming it,
    "landsat-c2-l1" first. *)
Theorem printed_descriptions_cases (d : dict string) :
  ((exists p, Intake.printed_descriptions d = Ok p) <->
   In "landsat-c2-l1" (PyDict.keys d) /\ In "landsat-c2-l2" (PyDict.keys d)) /\
  (~ In "landsat-c2-l1" (PyDict.keys d) ->
   Intake.printed_descriptions d = Raise (KeyError (KStr "landsat-c2-l1"))) /\
  (In "landsat-c2-l1" (PyDict.keys d) ->
   ~ In "landsat-c2-l2" (PyDict.keys d) ->
   Intake.printed_descriptions d = Raise (KeyError (KStr "landsat-c2-l2"))).
Proof.
  unfold Intake.printed_descriptions, PyDict.getitem.
  rewrite <- !get_in_keys.
  destruct (PyDict.get d "landsat-c2-l1") as [d1|]; cbn [bind];
    destruct (PyDict.get d "landsat-c2-l2") as [d2|]; cbn [bind].
  - split; [split; [intros _; split; discriminate | intros _; now eexists]|].
    split; [intros H; now elim H | intros _ H; now elim H].
  - split; [split; [intros [p H]; discriminate | intros [_ H]; now elim H]|].
    split; [intros H; now elim H | reflexivity].
  - split; [split; [intros [p H]; discriminate | intros [H _]; now elim H]|].
    split; [reflexivity | intros H; now elim H].
  - split; [split; [intros [p H]; discriminate | intros [H _]; now elim H]|].
    split; [reflexivity | intros H; now elim H].
Qed.

End DescriptionListing.

(** ** More on the two landsat filters *)

Module FilterFacts.
Import PyStr PyStrFacts.

Lemma app_assoc (a b c : string) : ((a ++ b) ++ c = a ++ b ++ c)%string.
Proof.
  induction a as [|x a IH]; simpl; [reflexivity | now rewrite IH].
Qed.

(** [a in b] and [b in c] give [a in c]. *)
Lemma str_in_trans (a b c : string) :
  str_in a b = true -> str_in b c = true -> str_in a c = true.
Proof.
  rewrite !str_in_spec. intros [p1 [q1 ->]] [p2 [q2 ->]].
  exists (p2 ++ p1)%string, (q1 ++ q2)%string.
  now rewrite !app_assoc.
Qed.

Lemma filter_implied {A : Type} (f g : A -> bool) (l : list A) :
  (forall x, f x = true -> g x = true) ->
  filter f (filter g l) = filter f l.
Proof.
  intros Himp. induction l as [|x l IH]; simpl; [reflexivity|].
  destruct (g x) eqn:Eg; simpl.
  - now rewrite IH.
  - destruct (f x) eqn:Ef; [|exact IH].
    apply Himp in Ef. congruence.
Qed.

(** Applying the exact test of the geospatial notebook to the list
    printed by the Intake notebook gives the list of the geospatial
    notebook: the Intake listing loses no collection that the
    geospatial one shows, and keeps their order. *)
Theorem exact_filter_refines (description : dict string) :
  Geospatial.landsat_collections (Intake.landsat_keys description)
  = Geospatial.landsat_collections (PyDict.keys description).
Proof.
  unfold Geospatial.landsat_collections, Intake.landsat_keys.
  apply filter_implied. intros key H.
  apply (str_in_lower "landsat" key H).
Qed.

(** On a catalog whose ids are all lowercase the two notebooks list
    the same collections in the same order. *)
Theorem filters_agree_on_lowercase (description : dict string) :
  Forall (fun key => lower key = key) (PyDict.keys description) ->
  Intake.landsat_keys description
  = Geospatial.landsat_collections (PyDict.keys description).
Proof.
  unfold Intake.landsat_keys, Geospatial.landsat_collections.
  induction (PyDict.keys description) as [|key keys IH]; intros Hlow;
    [reflexivity|].
  inversion Hlow as [|? ? Hkey Hrest]; subst. simpl.
  now rewrite Hkey, (IH Hrest).
Qed.

Lemma filters_agree_on_lowercase_witness :
  Intake.landsat_keys
    [("landsat-c2-l1", "a"); ("sentinel-2-l2a", "b"); ("landsat-c2-l2", "c")]
  = Geospatial.landsat_collections
      (PyDict.keys
         [("landsat-c2-l1", "a"); ("sentinel-2-l2a", "b"); ("landsat-c2-l2", "c")]).
Proof.
  apply (filters_agree_on_lowercase
           [("landsat-c2-l1", "a"); ("sentinel-2-l2a", "b"); ("landsat-c2-l2", "c")]).
  repeat constructor.
Defined.

(** The geospatial filter is closed under containment: an id that
    contains a kept id as a substring is kept as well. *)
Theorem superstring_kept (all_collections : list string) (a b : string) :
  In a (Geospatial.landsat_collections all_collections) ->
  In b all_collections ->
  str_in a b = true ->
  In b (Geospatial.landsat_collections all_collections).
Proof.
  intros Ha Hb Hab. apply LandsatFilters.landsat_collections_keeps.
  apply LandsatFilters.landsat_collections_keeps in Ha.
  split; [exact Hb | now apply (str_in_trans "landsat" a b)].
Qed.

Lemma superstring_kept_witness :
  In "usgs-landsat-c2-l2-st"
     (Geospatial.landsat_collections
        ["landsat-c2-l2"; "naip"; "usgs-landsat-c2-l2-st"]).
Proof.
  apply (superstring_kept
           ["landsat-c2-l2"; "naip"; "usgs-landsat-c2-l2-st"]
           "landsat-c2-l2" "usgs-landsat-c2-l2-st").
  - simpl. now left.
  - simpl. now right; right; left.
  - reflexivity.
Defined.

End FilterFacts.

(** ** A complete run of the Intake notebook *)

Module IntakeRun.
Import DescriptionFacts PyDictFacts.

Section WithLibraries.
Context {L : Intake.Libraries}.


End WithLibraries.


End IntakeRun.
